(** * Options calculator: Black-Scholes kernel and strategy analytics

    A shallow embedding of [lib/blackScholes.js] (classes
    [BlackScholesCalculator] and [OptionsStrategy]), of [generatePLCurve] and
    the result of [handleSingleOption] from the [/api/calculate] route, and of
    the pricing functions of the [pages/api/calculate] route.

    JavaScript numbers are IEEE-754 binary64 values, so they are modelled by
    Rocq's primitive [float]: [+], [-], [*], [/], [Math.sqrt], [Math.abs] and
    the comparisons are the kernel's binary64 operations and evaluate to the
    very bits a JavaScript engine produces.  [Math.exp] and [Math.log] are
    host functions whose values ECMAScript leaves implementation-approximated;
    they are parameters of the model, and concrete runs use a table of their
    correctly rounded values.  Loops whose exit depends on float arithmetic
    take a fuel argument and return [None] when it runs out. *)

From Stdlib Require Import List Bool Arith ZArith Lia.
From Stdlib Require Import Floats.
Import ListNotations.

Set Warnings "-inexact-float".
Open Scope float_scope.

(** ** JavaScript number primitives *)

Module JS.

(** [Math.max(a, b)]: NaN if either argument is NaN; [+0] is larger than [-0]. *)
Definition max2 (a b : float) : float :=
  if is_nan a || is_nan b then nan
  else if a <? b then b
  else if b <? a then a
  else if get_sign a then b else a.

(** [Math.min(a, b)]: NaN if either argument is NaN; [-0] is smaller than [+0]. *)
Definition min2 (a b : float) : float :=
  if is_nan a || is_nan b then nan
  else if a <? b then a
  else if b <? a then b
  else if get_sign a then a else b.

(** [Math.max(...xs)] and [Math.min(...xs)]; on no argument they are
    [-Infinity] and [Infinity]. *)
Definition max_list (xs : list float) : float := fold_left max2 xs neg_infinity.
Definition min_list (xs : list float) : float := fold_left min2 xs infinity.

(** [x > y] *)
Definition gtb (x y : float) : bool := y <? x.
(** [x >= y] *)
Definition geb (x y : float) : bool := y <=? x.

(** 2^52: from here on every binary64 value is an integer. *)
Definition two52 : float := 4503599627370496.

(** [Math.floor] for finite arguments, by the round-to-integer effect of
    adding and subtracting 2^52. *)
Definition floor (x : float) : float :=
  if two52 <=? abs x then x
  else
    let r := if 0 <=? x then (x + two52) - two52 else - ((- x + two52) - two52) in
    if x <? r then r - 1 else r.

(** [Math.round(x)]: the nearest integer, ties towards [+Infinity]; the sign
    of a zero result is that of [x]. *)
Definition round (x : float) : float :=
  if is_nan x || is_infinity x || (two52 <=? abs x) then x
  else
    let f := floor x in
    let r := if x - f <? 0.5 then f else f + 1 in
    if (r =? 0) && get_sign x then neg_zero else r.

(** SameValueZero, the equality of [Set]: NaN equals NaN, [+0] equals [-0]. *)
Definition same_value_zero (x y : float) : bool :=
  (x =? y) || (is_nan x && is_nan y).

(** The value that [Set.prototype.add] stores for [x]: [-0] is stored as
    [+0], every other value as it is. *)
Definition set_value (x : float) : float := if x =? 0 then 0 else x.

(** [[...new Set(xs)]]: the stored values of the first occurrences, in
    insertion order. *)
Fixpoint set_spread_from (seen : list float) (xs : list float) : list float :=
  match xs with
  | [] => []
  | x :: xs' =>
      if existsb (same_value_zero x) seen then set_spread_from seen xs'
      else set_value x :: set_spread_from (set_value x :: seen) xs'
  end.

Definition set_spread (xs : list float) : list float := set_spread_from [] xs.

End JS.

(** ** Option legs *)

Inductive position := Long | Short.
Inductive option_type := Call | Put.

(** A leg as [addLeg] stores it.  [type] is ['long'] or ['short'] and
    [optionType] is ['call'] or ['put']; the code compares against ['long']
    and ['call'] only, so the second constructor stands for every other
    value.  [expiration] is the epoch time in milliseconds that
    [new Date(leg.expiration)] denotes. *)
Record leg := mkLeg {
  type : position;
  strike : float;
  premium : float;
  quantity : float;
  optionType : option_type;
  expiration : float
}.

Definition is_long (p : position) : bool :=
  match p with Long => true | Short => false end.
Definition is_call (o : option_type) : bool :=
  match o with Call => true | Put => false end.

(** ** OptionsStrategy: expiration P&L *)

Definition legPLAtExpiration (stockPrice : float) (l : leg) : float :=
  let intrinsicValue :=
    if is_call (optionType l) then JS.max2 0 (stockPrice - strike l)
    else JS.max2 0 (strike l - stockPrice) in
  if is_long (type l) then (intrinsicValue - premium l) * quantity l * 100
  else (premium l - intrinsicValue) * quantity l * 100.

Definition calculatePLAtExpiration (legs : list leg) (stockPrice : float) : float :=
  fold_left (fun totalPL l => totalPL + legPLAtExpiration stockPrice l) legs 0.

(** ** OptionsStrategy.calculateBreakevens *)

Definition crosses (lastPL pl : float) : bool :=
  ((lastPL <=? 0) && JS.geb pl 0) || (JS.geb lastPL 0 && (pl <=? 0)).

(** The inner [while (high - low > 0.01)] loop.  It pushes at most one
    midpoint, and only on the [Math.abs(midPL) < 0.01] exit. *)
Fixpoint bisect (legs : list leg) (fuel : nat) (low high lastPL : float)
    (breakevens : list float) : option (list float) :=
  if JS.gtb (high - low) 0.01 then
    match fuel with
    | O => None
    | S fuel' =>
        let mid := (low + high) / 2 in
        let midPL := calculatePLAtExpiration legs mid in
        if abs midPL <? 0.01 then Some (breakevens ++ [mid])
        else if crosses lastPL midPL then bisect legs fuel' low mid lastPL breakevens
        else bisect legs fuel' mid high midPL breakevens
    end
  else Some breakevens.

(** The outer [for (price = startPrice; price <= endPrice; price += 0.25)]
    loop; [lastPL] is [null] before the first sample. *)
Fixpoint scan (legs : list leg) (fuel : nat) (endPrice price : float)
    (lastPL : option float) (breakevens : list float) : option (list float) :=
  if price <=? endPrice then
    match fuel with
    | O => None
    | S fuel' =>
        let currentPL := calculatePLAtExpiration legs price in
        let found :=
          match lastPL with
          | Some last =>
              if crosses last currentPL
              then bisect legs fuel' (price - 0.25) price last breakevens
              else Some breakevens
          | None => Some breakevens
          end in
        match found with
        | Some breakevens' =>
            scan legs fuel' endPrice (price + 0.25) (Some currentPL) breakevens'
        | None => None
        end
    end
  else Some breakevens.

Definition calculateBreakevens (fuel : nat) (legs : list leg) : option (list float) :=
  let minStrike := JS.min_list (map strike legs) in
  let maxStrike := JS.max_list (map strike legs) in
  let priceRange := JS.max2 (maxStrike - minStrike) 50 in
  let startPrice := minStrike - priceRange * 0.5 in
  let endPrice := maxStrike + priceRange * 0.5 in
  match scan legs fuel endPrice startPrice None [] with
  | Some breakevens =>
      Some (JS.set_spread (map (fun be => JS.round (be * 100) / 100) breakevens))
  | None => None
  end.

(** ** OptionsStrategy.calculateMaxProfitLoss *)

(** A summary field that holds a number or [null]. *)
Inductive value := VNull | VNum (x : float).

Record extrema := mkExtrema { maxProfit : value; maxLoss : value }.

(** The [for (price = startPrice; price <= endPrice; price += 0.5)] loop. *)
Fixpoint sample (legs : list leg) (fuel : nat) (endPrice price maxP maxL : float)
    : option (float * float) :=
  if price <=? endPrice then
    match fuel with
    | O => None
    | S fuel' =>
        let pl := calculatePLAtExpiration legs price in
        sample legs fuel' endPrice (price + 0.5) (JS.max2 maxP pl) (JS.min2 maxL pl)
    end
  else Some (maxP, maxL).

Definition calculateMaxProfitLoss (fuel : nat) (legs : list leg) : option extrema :=
  let strikes := map strike legs in
  let minStrike := JS.min_list strikes in
  let maxStrike := JS.max_list strikes in
  let priceRange := JS.max2 (maxStrike - minStrike) 100 in
  let startPrice := JS.max2 0.01 (minStrike - priceRange) in
  let endPrice := maxStrike + priceRange in
  match sample legs fuel endPrice startPrice neg_infinity infinity with
  | Some (maxP, maxL) =>
      let extremeLow := calculatePLAtExpiration legs 0.01 in
      let extremeHigh := calculatePLAtExpiration legs (endPrice * 2) in
      let maxP := JS.max_list [maxP; extremeLow; extremeHigh] in
      let maxL := JS.min_list [maxL; extremeLow; extremeHigh] in
      Some {| maxProfit := if maxP =? neg_infinity then VNull else VNum maxP;
              maxLoss := if maxL =? infinity then VNull else VNum maxL |}
  | None => None
  end.

Definition longCall (K p : float) : leg := mkLeg Long K p 1 Call 0.
Definition longPut (K p : float) : leg := mkLeg Long K p 1 Put 0.
Definition longStraddle (K p1 p2 : float) : list leg := [longCall K p1; longPut K p2].

(** ** BlackScholesCalculator *)

Section Host.

(** The host's [Math.exp] and [Math.log]. *)
Variable Math_exp : float -> float.
Variable Math_log : float -> float.

(** [Math.PI], the binary64 value nearest to pi. *)
Definition Math_PI : float := 3.141592653589793.

Definition DAYS_PER_YEAR : float := 365.

Definition normalCDF (x : float) : float :=
  let a1 := 0.254829592 in
  let a2 := -0.284496736 in
  let a3 := 1.421413741 in
  let a4 := -1.453152027 in
  let a5 := 1.061405429 in
  let p := 0.3275911 in
  let sign := if x <? 0 then -1 else 1 in
  let x := abs x / sqrt 2.0 in
  let t := 1.0 / (1.0 + p * x) in
  let y := 1.0 - (((((a5 * t + a4) * t) + a3) * t + a2) * t + a1) * t * Math_exp (- x * x) in
  0.5 * (1.0 + sign * y).

Definition normalPDF (x : float) : float :=
  Math_exp (-0.5 * x * x) / sqrt (2 * Math_PI).

Definition calculateD1 (S K T r sigma : float) : float :=
  (Math_log (S / K) + (r + 0.5 * sigma * sigma) * T) / (sigma * sqrt T).

Definition calculateD2 (d1 sigma T : float) : float :=
  d1 - sigma * sqrt T.

Definition callPrice (S K T r sigma : float) : float :=
  if T <=? 0 then JS.max2 (S - K) 0
  else
    let d1 := calculateD1 S K T r sigma in
    let d2 := calculateD2 d1 sigma T in
    S * normalCDF d1 - K * Math_exp (- r * T) * normalCDF d2.

Definition putPrice (S K T r sigma : float) : float :=
  if T <=? 0 then JS.max2 (K - S) 0
  else
    let d1 := calculateD1 S K T r sigma in
    let d2 := calculateD2 d1 sigma T in
    K * Math_exp (- r * T) * normalCDF (- d2) - S * normalCDF (- d1).

Definition vega (S K T r sigma : float) : float :=
  if T <=? 0 then 0
  else
    let d1 := calculateD1 S K T r sigma in
    S * normalPDF d1 * sqrt T / 100.

(** *** impliedVolatility *)

(** The three ways out of the Newton-Raphson loop: the [return sigma] inside
    it, the [break] on a zero vega, and the end of the iteration budget.  The
    function returns the bare [sigma] on all three. *)
Inductive iv_exit := Converged | VegaZero | Exhausted.

Section ImpliedVolatility.

Variables marketPrice S K T r : float.
Variable optionType' : option_type.
Variable tolerance : float.

Definition modelPrice (sigma : float) : float :=
  if is_call optionType' then callPrice S K T r sigma else putPrice S K T r sigma.

(** One Newton update followed by the clamp to [0.01, 5.0]. *)
Definition newtonStep (sigma : float) : float :=
  let diff := modelPrice sigma - marketPrice in
  let vega := vega S K T r sigma * 100 in
  let sigma := sigma - diff / vega in
  JS.max2 0.01 (JS.min2 5.0 sigma).

(** The [for (let i = 0; i < maxIterations; i++)] loop, with [n] iterations
    left. *)
Fixpoint iv_loop (n : nat) (sigma : float) : float * iv_exit :=
  match n with
  | O => (sigma, Exhausted)
  | Datatypes.S n' =>
      let price := modelPrice sigma in
      let diff := price - marketPrice in
      if abs diff <? tolerance then (sigma, Converged)
      else
        let vega := vega S K T r sigma * 100 in
        if vega =? 0 then (sigma, VegaZero)
        else
          let sigma := sigma - diff / vega in
          let sigma := JS.max2 0.01 (JS.min2 5.0 sigma) in
          iv_loop n' sigma
  end.

Definition impliedVolatility_run (maxIterations : nat) : float * iv_exit :=
  iv_loop maxIterations 0.3.

Definition impliedVolatility (maxIterations : nat) : float :=
  fst (impliedVolatility_run maxIterations).

Definition impliedVolatility_exit (maxIterations : nat) : iv_exit :=
  snd (impliedVolatility_run maxIterations).

End ImpliedVolatility.

(** *** The other Greeks *)

Definition delta (S K T r sigma : float) (optionType' : option_type) : float :=
  if T <=? 0 then
    if is_call optionType' then (if JS.gtb S K then 1 else 0)
    else (if S <? K then -1 else 0)
  else
    let d1 := calculateD1 S K T r sigma in
    if is_call optionType' then normalCDF d1 else normalCDF d1 - 1.

Definition gamma (S K T r sigma : float) : float :=
  if T <=? 0 then 0
  else
    let d1 := calculateD1 S K T r sigma in
    normalPDF d1 / (S * sigma * sqrt T).

Definition theta (S K T r sigma : float) (optionType' : option_type) : float :=
  if T <=? 0 then 0
  else
    let d1 := calculateD1 S K T r sigma in
    let d2 := calculateD2 d1 sigma T in
    let term1 := - (S * normalPDF d1 * sigma) / (2 * sqrt T) in
    if is_call optionType' then
      let term2 := r * K * Math_exp (- r * T) * normalCDF d2 in
      (term1 - term2) / DAYS_PER_YEAR
    else
      let term2 := r * K * Math_exp (- r * T) * normalCDF (- d2) in
      (term1 + term2) / DAYS_PER_YEAR.

Definition rho (S K T r sigma : float) (optionType' : option_type) : float :=
  if T <=? 0 then 0
  else
    let d1 := calculateD1 S K T r sigma in
    let d2 := calculateD2 d1 sigma T in
    if is_call optionType' then K * T * Math_exp (- r * T) * normalCDF d2 / 100
    else - K * T * Math_exp (- r * T) * normalCDF (- d2) / 100.

Record greeks := mkGreeks {
  g_price : float;
  g_delta : float;
  g_gamma : float;
  g_theta : float;
  g_vega : float;
  g_rho : float
}.

Definition calculateAllGreeks (S K T r sigma : float) (optionType' : option_type) : greeks :=
  let price :=
    if is_call optionType' then callPrice S K T r sigma else putPrice S K T r sigma in
  {| g_price := price;
     g_delta := delta S K T r sigma optionType';
     g_gamma := gamma S K T r sigma;
     g_theta := theta S K T r sigma optionType';
     g_vega := vega S K T r sigma;
     g_rho := rho S K T r sigma optionType' |}.

Definition probabilityOfProfit (S breakeven T sigma : float) : float :=
  if T <=? 0 then (if JS.gtb S breakeven then 100 else 0)
  else
    let logReturn := Math_log (breakeven / S) in
    let drift := -0.5 * sigma * sigma * T in
    let diffusion := sigma * sqrt T in
    let z := (logReturn - drift) / diffusion in
    (1 - normalCDF z) * 100.

(** *** Time to expiration and current P&L *)

(** [now] is the instant [new Date()] reads; a calculation is taken to read
    the same instant throughout. *)
Variable now : float.

Definition timeToExpiration (expirationDate : float) : float :=
  let diffTime := expirationDate - now in
  let diffDays := diffTime / (1000 * 60 * 60 * 24) in
  JS.max2 0 (diffDays / DAYS_PER_YEAR).

Definition legCurrentPL (stockPrice riskFreeRate impliedVol : float) (l : leg) : float :=
  let T := timeToExpiration (expiration l) in
  let currentPrice :=
    if is_call (optionType l) then callPrice stockPrice (strike l) T riskFreeRate impliedVol
    else putPrice stockPrice (strike l) T riskFreeRate impliedVol in
  if is_long (type l) then (currentPrice - premium l) * quantity l * 100
  else (premium l - currentPrice) * quantity l * 100.

Definition calculateCurrentPL (legs : list leg) (stockPrice riskFreeRate impliedVol : float)
    : float :=
  fold_left (fun totalPL l => totalPL + legCurrentPL stockPrice riskFreeRate impliedVol l)
    legs 0.

(** ** OptionsStrategy.getStrategySummary *)

Record summary := mkSummary {
  s_breakevens : list float;
  s_maxProfit : value;
  s_maxLoss : value;
  s_currentPL : float;
  s_totalPremium : float;
  s_riskRewardRatio : value;
  s_probabilityOfProfit : value
}.

(** A number or [null] as a condition: [null], [0] and NaN are falsy. *)
Definition truthy (v : value) : bool :=
  match v with
  | VNull => false
  | VNum x => negb (is_nan x || (x =? 0))
  end.

(** A number or [null] as an operand of [/]: [null] counts as [0]. *)
Definition to_number (v : value) : float :=
  match v with
  | VNull => 0
  | VNum x => x
  end.

Definition totalPremium (legs : list leg) : float :=
  fold_left
    (fun total l =>
       if is_long (type l) then total - premium l * quantity l * 100
       else total + premium l * quantity l * 100)
    legs 0.

(** [this.legs[0]?.expiration] as a date: an absent leg gives an invalid
    date, whose time value is NaN. *)
Definition firstExpiration (legs : list leg) : float :=
  match legs with
  | [] => nan
  | l :: _ => expiration l
  end.

Definition getStrategySummary (fuel : nat) (legs : list leg)
    (currentStockPrice riskFreeRate impliedVol : float) : option summary :=
  match calculateBreakevens fuel legs, calculateMaxProfitLoss fuel legs with
  | Some breakevens, Some ex =>
      let currentPL := calculateCurrentPL legs currentStockPrice riskFreeRate impliedVol in
      Some {| s_breakevens := breakevens;
              s_maxProfit := maxProfit ex;
              s_maxLoss := maxLoss ex;
              s_currentPL := currentPL;
              s_totalPremium := totalPremium legs;
              s_riskRewardRatio :=
                if truthy (maxLoss ex)
                then VNum (abs (to_number (maxProfit ex) / to_number (maxLoss ex)))
                else VNull;
              s_probabilityOfProfit :=
                match breakevens with
                | be0 :: _ =>
                    VNum (probabilityOfProfit currentStockPrice be0
                            (timeToExpiration (firstExpiration legs)) impliedVol)
                | [] => VNull
                end |}
  | _, _ => None
  end.

(** ** generatePLCurve *)

Record point := mkPoint { stockPrice : float; pl : float }.

Record plData := mkPlData { atExpiration : list point; current : list point }.

(** [priceRange || currentStockPrice * 0.5]: [null], [0] and NaN are falsy. *)
Definition or_default (priceRange : option float) (dflt : float) : float :=
  match priceRange with
  | Some x => if is_nan x || (x =? 0) then dflt else x
  | None => dflt
  end.

(** The [for (price = startPrice; price <= endPrice; price += step)] loop with
    its two [push]es. *)
Fixpoint curve (legs : list leg) (fuel : nat) (endPrice step price : float)
    (plAtExpiration plCurrent : list point) : option plData :=
  if price <=? endPrice then
    match fuel with
    | O => None
    | Datatypes.S fuel' =>
        curve legs fuel' endPrice step (price + step)
          (plAtExpiration ++ [mkPoint price (calculatePLAtExpiration legs price)])
          (plCurrent ++ [mkPoint price (calculateCurrentPL legs price 0.05 0.25)])
    end
  else Some (mkPlData plAtExpiration plCurrent).

Definition generatePLCurve (fuel : nat) (legs : list leg) (priceRange : option float)
    (currentStockPrice : float) : option plData :=
  let range := or_default priceRange (currentStockPrice * 0.5) in
  let startPrice := JS.max2 0.01 (currentStockPrice - range) in
  let endPrice := currentStockPrice + range in
  let step := (endPrice - startPrice) / 100 in
  curve legs fuel endPrice step startPrice [] [].

(** ** handleSingleOption

    The [result] object of the response that [handleSingleOption] sends with
    status 200, for a request that passed its checks. *)

Record singleOptionResult := mkSingleOptionResult {
  so_price : float;
  so_greeks : greeks;
  so_timeToExpiration : float;
  so_intrinsicValue : float;
  so_timeValue : float
}.

Definition handleSingleOption (strike expiration : float) (optionType' : option_type)
    (stockPrice riskFreeRate impliedVolatility : float) : singleOptionResult :=
  let T := timeToExpiration expiration in
  let greeks :=
    calculateAllGreeks stockPrice strike T riskFreeRate impliedVolatility optionType' in
  {| so_price := g_price greeks;
     so_greeks := greeks;
     so_timeToExpiration := T;
     so_intrinsicValue :=
       if is_call optionType' then JS.max2 0 (stockPrice - strike)
       else JS.max2 0 (strike - stockPrice);
     so_timeValue :=
       g_price greeks - (if is_call optionType' then JS.max2 0 (stockPrice - strike)
                         else JS.max2 0 (strike - stockPrice)) |}.

End Host.

(** ** A sample host

    The correctly rounded values of [Math.exp] and [Math.log] at the arguments
    that the concrete runs below reach, together with the values ECMAScript
    fixes ([exp(+-0) = 1], [log(1) = +0], NaN in, NaN out, the infinities).
    Outside the table the sample host answers NaN. *)

Fixpoint table_lookup (tbl : list (float * float)) (x : float) : option float :=
  match tbl with
  | [] => None
  | (a, v) :: tbl' => if x =? a then Some v else table_lookup tbl' x
  end.

Definition exp_table : list (float * float) :=
  [ (-45.64468635320663, 1.5023274015830124e-20);
    (-45.24022124509847, 2.2512387376422027e-20);
    (-45.24022124509846, 2.2512387376422187e-20);
    (-31.512379022998218, 2.0622802310737087e-14);
    (-31.288235471684, 2.5804294284858908e-14);
    (-30.953520144712677, 3.6062597582721484e-14);
    (-30.73137659339846, 4.5033191263036157e-14);
    (-3.1249999999999996, 0.043936933623407434);
    (-0.4283245777310313, 0.6515998856593374);
    (-0.125, 0.8824969025845955);
    (-0.12499999999999997, 0.8824969025845955);
    (-0.023859469622866933, 0.976422917197572);
    (-0.02385946962286693, 0.976422917197572);
    (-0.001, 0.999000499833375);
    (3.0, 20.085536923187668) ].

Definition log_table : list (float * float) :=
  [ (0.6666666666666666, -0.40546510810816444);
    (0.8, -0.2231435513142097);
    (1.25, 0.22314355131420976) ].

Definition sample_exp (x : float) : float :=
  if is_nan x then nan
  else if x =? 0 then 1
  else if x =? infinity then infinity
  else if x =? neg_infinity then 0
  else match table_lookup exp_table x with Some v => v | None => nan end.

Definition sample_log (x : float) : float :=
  if is_nan x || (x <? 0) then nan
  else if x =? 0 then neg_infinity
  else if x =? 1 then 0
  else if x =? infinity then infinity
  else match table_lookup log_table x with Some v => v | None => nan end.



(** The prices the loop of [generatePLCurve] visits, on their own. *)
Fixpoint curve_prices (fuel : nat) (endPrice step price : float) : option (list float) :=
  if price <=? endPrice then
    match fuel with
    | O => None
    | S fuel' => option_map (cons price) (curve_prices fuel' endPrice step (price + step))
    end
  else Some [].

(** ** The pricing functions of the [pages/api/calculate] route

    This route carries its own copy of the kernel; its prices are floored
    at 0. *)

Definition blackScholesCall (Math_exp Math_log : float -> float) (S K T r sigma : float)
    : float :=
  if T <=? 0 then JS.max2 (S - K) 0
  else
    let d1 := (Math_log (S / K) + (r + 0.5 * sigma * sigma) * T) / (sigma * sqrt T) in
    let d2 := d1 - sigma * sqrt T in
    let callPrice := S * normalCDF Math_exp d1 - K * Math_exp (- r * T) * normalCDF Math_exp d2 in
    JS.max2 callPrice 0.

Definition blackScholesPut (Math_exp Math_log : float -> float) (S K T r sigma : float)
    : float :=
  if T <=? 0 then JS.max2 (K - S) 0
  else
    let d1 := (Math_log (S / K) + (r + 0.5 * sigma * sigma) * T) / (sigma * sqrt T) in
    let d2 := d1 - sigma * sqrt T in
    let putPrice :=
      K * Math_exp (- r * T) * normalCDF Math_exp (- d2) - S * normalCDF Math_exp (- d1) in
    JS.max2 putPrice 0.

(** The grid of [calculateMaxProfitLoss]: its first price and its end. *)
Definition extremaStartPrice (legs : list leg) : float :=
  let strikes := map strike legs in
  let minStrike := JS.min_list strikes in
  let maxStrike := JS.max_list strikes in
  JS.max2 0.01 (minStrike - JS.max2 (maxStrike - minStrike) 100).

Definition extremaEndPrice (legs : list leg) : float :=
  let strikes := map strike legs in
  let minStrike := JS.min_list strikes in
  let maxStrike := JS.max_list strikes in
  maxStrike + JS.max2 (maxStrike - minStrike) 100.

(** The prices at which [calculateMaxProfitLoss] evaluates the P&L: the grid
    and the two boundary samples. *)
Definition extremaSamples (fuel : nat) (legs : list leg) : option (list float) :=
  option_map (fun ps => ps ++ [0.01; extremaEndPrice legs * 2])
    (curve_prices fuel (extremaEndPrice legs) 0.5 (extremaStartPrice legs)).

(** The bounds of [generatePLCurve]. *)
Definition curveStartPrice (priceRange : option float) (currentStockPrice : float) : float :=
  JS.max2 0.01 (currentStockPrice - or_default priceRange (currentStockPrice * 0.5)).

Definition curveEndPrice (priceRange : option float) (currentStockPrice : float) : float :=
  currentStockPrice + or_default priceRange (currentStockPrice * 0.5).

(** ** Predicates used by the statements *)

(** [sigma] is a number of the interval [0.01, 5.0]. *)
Definition in_bounds (sigma : float) : bool := (0.01 <=? sigma) && (sigma <=? 5.0).

(** A caller-side test [tell] on the returned number that holds exactly for
    the converged runs of [impliedVolatility]. *)
Definition tells_convergence (Math_exp Math_log : float -> float) (tell : float -> bool)
    : Prop :=
  forall marketPrice S K T r optionType tolerance maxIterations,
    tell (impliedVolatility Math_exp Math_log marketPrice S K T r optionType tolerance
            maxIterations) = true <->
    impliedVolatility_exit Math_exp Math_log marketPrice S K T r optionType tolerance
      maxIterations = Converged.

(** A summary field that holds a finite number (not [null], NaN or an
    infinity). *)
Definition finite_number (v : value) : bool :=
  match v with
  | VNum x => is_finite x
  | VNull => false
  end.

(** * Properties *)

(** ** The order of binary64 values *)

Section FloatOrder.

Lemma SFcompare_antisym (x y : spec_float) :
  SFcompare y x = option_map CompOpp (SFcompare x y).
Proof.
  destruct x as [sx|sx| |sx mx ex], y as [sy|sy| |sy my ey]; simpl;
    try destruct sx; try destruct sy; try reflexivity.
  - rewrite (Z.compare_antisym ex ey).
    destruct (ex ?= ey)%Z; simpl; try reflexivity.
    now rewrite (Pos.compare_cont_antisym mx my Eq).
  - rewrite (Z.compare_antisym ex ey).
    destruct (ex ?= ey)%Z; simpl; try reflexivity.
    now rewrite (Pos.compare_cont_antisym mx my Eq).
Qed.

Lemma is_nan_false_spec (x : float) :
  is_nan x = false -> Prim2SF x <> S754_nan.
Proof.
  unfold is_nan. rewrite eqb_spec. intros H E. rewrite E in H. discriminate.
Qed.

Lemma SFcompare_some (x y : spec_float) :
  x <> S754_nan -> y <> S754_nan -> exists c, SFcompare x y = Some c.
Proof.
  destruct x, y; simpl; intros; try congruence; eauto.
Qed.

Lemma ltb_leb (x y : float) : (x <? y) = true -> (x <=? y) = true.
Proof.
  rewrite ltb_spec, leb_spec. unfold SFltb, SFleb.
  destruct (SFcompare _ _) as [[]|]; congruence.
Qed.

(** Two numbers (not NaN) are comparable. *)
Lemma not_ltb_leb (x y : float) :
  is_nan x = false -> is_nan y = false -> (x <? y) = false -> (y <=? x) = true.
Proof.
  intros Hx Hy. rewrite ltb_spec, leb_spec. unfold SFltb, SFleb.
  rewrite (SFcompare_antisym (Prim2SF x) (Prim2SF y)).
  destruct (SFcompare_some _ _ (is_nan_false_spec _ Hx) (is_nan_false_spec _ Hy))
    as [c ->].
  destruct c; simpl; congruence.
Qed.

End FloatOrder.

(** ** The clamp of the implied-volatility solver *)

(** [Math.max(0.01, Math.min(5.0, x))] lands in the interval, unless [x] is
    NaN, which both functions pass on. *)
Lemma clamp_bounds (x : float) :
  is_nan x = false -> in_bounds (JS.max2 0.01 (JS.min2 5.0 x)) = true.
Proof.
  intros Hx. unfold JS.min2. change (is_nan 5.0) with false. rewrite Hx. simpl orb.
  cbv iota.
  destruct (5.0 <? x) eqn:H5x; [reflexivity|].
  assert (Hle5 : (x <=? 5.0) = true) by (apply not_ltb_leb; auto).
  assert (Hm : (if x <? 5.0 then x else if get_sign 5.0 then 5.0 else x) = x)
    by (destruct (x <? 5.0); reflexivity).
  rewrite Hm. unfold JS.max2. change (is_nan 0.01) with false. rewrite Hx. simpl orb.
  cbv iota.
  destruct (0.01 <? x) eqn:H1x.
  - unfold in_bounds. now rewrite (ltb_leb _ _ H1x), Hle5.
  - destruct (x <? 0.01); reflexivity.
Qed.

Lemma clamp_nan (x : float) :
  is_nan x = true -> is_nan (JS.max2 0.01 (JS.min2 5.0 x)) = true.
Proof.
  intros Hx. unfold JS.min2. rewrite Hx, orb_true_r. reflexivity.
Qed.

Lemma clamp_nan_or_bounds (x : float) :
  let c := JS.max2 0.01 (JS.min2 5.0 x) in is_nan c = true \/ in_bounds c = true.
Proof.
  destruct (is_nan x) eqn:Hx; [left; now apply clamp_nan | right; now apply clamp_bounds].
Qed.

(** ** Pricing at or past expiry *)

(** C3. For every S, K, r, sigma and every T <= 0, [callPrice] is
    [Math.max(S - K, 0)] and [putPrice] is [Math.max(K - S, 0)]: at or past
    expiry the price is the intrinsic value, whatever the host's [exp] and
    [log]. *)
Theorem expired_option_prices_intrinsic
    (Math_exp Math_log : float -> float) (S K T r sigma : float) :
  (T <=? 0) = true ->
  callPrice Math_exp Math_log S K T r sigma = JS.max2 (S - K) 0 /\
  putPrice Math_exp Math_log S K T r sigma = JS.max2 (K - S) 0.
Proof.
  intros HT. unfold callPrice, putPrice. rewrite HT. split; reflexivity.
Qed.

Lemma expired_option_prices_intrinsic_witness :
  callPrice sample_exp sample_log 105 100 0 0.05 0.25 = JS.max2 (105 - 100) 0 /\
  putPrice sample_exp sample_log 105 100 0 0.05 0.25 = JS.max2 (100 - 105) 0.
Proof.
  apply (expired_option_prices_intrinsic sample_exp sample_log 105 100 0 0.05 0.25).
  reflexivity.
Defined.

(** [Math.max(x, 0)] is never below 0, so at or past expiry no price is
    negative (the floor that the T > 0 path lacks). *)
Lemma max2_zero_not_negative (x : float) : (JS.max2 x 0 <? 0) = false.
Proof.
  unfold JS.max2. destruct (is_nan x); [reflexivity|].
  change (is_nan 0) with false. simpl orb. cbv iota.
  destruct (x <? 0) eqn:E; [reflexivity|].
  destruct (0 <? x); [exact E|].
  destruct (get_sign x); [reflexivity | exact E].
Qed.

Lemma expired_option_prices_not_negative
    (Math_exp Math_log : float -> float) (S K T r sigma : float) :
  (T <=? 0) = true ->
  (callPrice Math_exp Math_log S K T r sigma <? 0) = false /\
  (putPrice Math_exp Math_log S K T r sigma <? 0) = false.
Proof.
  intros HT. unfold callPrice, putPrice. rewrite HT.
  split; apply max2_zero_not_negative.
Qed.

(** ** The implied-volatility solver *)

Section Solver.

Variables Math_exp Math_log : float -> float.
Variables marketPrice S K T r : float.
Variable optionType : option_type.
Variable tolerance : float.

Let loop := iv_loop Math_exp Math_log marketPrice S K T r optionType tolerance.

(** At or past expiry vega is 0, so an iteration either returns (tolerance
    met) or breaks; [sigma] is never updated. *)
Lemma iv_loop_at_expiry (n : nat) (sigma : float) :
  (T <=? 0) = true ->
  loop n sigma =
    (sigma,
     match n with
     | O => Exhausted
     | _ =>
         if abs (modelPrice Math_exp Math_log S K T r optionType sigma - marketPrice)
              <? tolerance
         then Converged else VegaZero
     end).
Proof.
  intros HT. destruct n as [|n]; [reflexivity|].
  unfold loop. simpl. unfold vega. rewrite HT.
  change (0 * 100 =? 0) with true.
  destruct (abs _ <? tolerance); reflexivity.
Qed.

(** Every value the loop can return is NaN or within [0.01, 5.0], provided
    the iterate it starts from is. *)
Lemma iv_loop_nan_or_bounds (n : nat) (sigma : float) :
  is_nan sigma = true \/ in_bounds sigma = true ->
  is_nan (fst (loop n sigma)) = true \/ in_bounds (fst (loop n sigma)) = true.
Proof.
  revert sigma. induction n as [|n IH]; intros sigma Hs; [exact Hs|].
  unfold loop. simpl.
  destruct (abs _ <? tolerance); [exact Hs|].
  destruct (_ =? 0); [exact Hs|].
  apply IH. apply clamp_nan_or_bounds.
Qed.

(** A run that ends by exhausting its budget has applied [newtonStep] at
    every iteration. *)
Lemma iv_loop_exhausted (n : nat) (sigma : float) :
  snd (loop n sigma) = Exhausted ->
  fst (loop n sigma) =
    Nat.iter n (newtonStep Math_exp Math_log marketPrice S K T r optionType) sigma.
Proof.
  revert sigma. induction n as [|n IH]; intros sigma; [reflexivity|].
  rewrite Nat.iter_succ_r. unfold loop. simpl.
  destruct (abs _ <? tolerance); [discriminate|].
  destruct (_ =? 0); [discriminate|].
  intros H. apply (IH _ H).
Qed.

End Solver.

(** C10. For every marketPrice, S, K, r and optionType (and every tolerance
    and iteration budget), when T <= 0 [impliedVolatility] returns exactly
    the initial guess 0.3: vega is 0 there, so the first iteration either
    returns (tolerance met) or breaks, and sigma is never updated. *)
Theorem impliedVolatility_at_expiry
    (Math_exp Math_log : float -> float) (marketPrice S K T r : float)
    (optionType : option_type) (tolerance : float) (maxIterations : nat) :
  (T <=? 0) = true ->
  impliedVolatility Math_exp Math_log marketPrice S K T r optionType tolerance
    maxIterations = 0.3 /\
  impliedVolatility_exit Math_exp Math_log marketPrice S K T r optionType tolerance
    maxIterations =
    match maxIterations with
    | O => Exhausted
    | _ =>
        if abs (modelPrice Math_exp Math_log S K T r optionType 0.3 - marketPrice)
             <? tolerance
        then Converged else VegaZero
    end.
Proof.
  intros HT. unfold impliedVolatility, impliedVolatility_exit, impliedVolatility_run.
  rewrite iv_loop_at_expiry by exact HT. split; reflexivity.
Qed.

Lemma impliedVolatility_at_expiry_witness :
  impliedVolatility sample_exp sample_log 50 105 100 0 0.05 Call 0.0001 100 = 0.3 /\
  impliedVolatility_exit sample_exp sample_log 50 105 100 0 0.05 Call 0.0001 100 = VegaZero.
Proof.
  apply (impliedVolatility_at_expiry sample_exp sample_log 50 105 100 0 0.05 Call 0.0001 100).
  reflexivity.
Defined.

(** C7, as amended. For every input, the value [impliedVolatility] returns
    is NaN or lies in [0.01, 5.0]: the iterate starts at 0.3 and every Newton
    update goes through [Math.max(0.01, Math.min(5.0, sigma))], which bounds
    every number and passes NaN on. *)
Theorem impliedVolatility_nan_or_bounds
    (Math_exp Math_log : float -> float) (marketPrice S K T r : float)
    (optionType : option_type) (tolerance : float) (maxIterations : nat) :
  let sigma :=
    impliedVolatility Math_exp Math_log marketPrice S K T r optionType tolerance
      maxIterations in
  is_nan sigma = true \/ in_bounds sigma = true.
Proof.
  unfold impliedVolatility, impliedVolatility_run. cbv zeta.
  apply iv_loop_nan_or_bounds. right. reflexivity.
Qed.

(** C7 fails as stated.  With T = NaN (what [timeToExpiration] yields for an
    invalid expiration date) the first Newton update is NaN, the clamp passes
    it on, and after 100 iterations NaN is returned.  The same happens with
    finite positive S, K, T and market price once the arithmetic overflows:
    for S = K = 1e308, T = 100, r = -0.03 the model price is [-Infinity] and
    vega is [Infinity], so diff / vega is NaN. *)
Lemma impliedVolatility_nan_escapes_clamp :
  (1 <= 100)%nat /\
  in_bounds (impliedVolatility sample_exp sample_log 5 100 100 nan 0.05 Call 0.0001 100)
    = false /\
  is_nan (impliedVolatility sample_exp sample_log 5 100 100 nan 0.05 Call 0.0001 100)
    = true /\
  in_bounds
    (impliedVolatility sample_exp sample_log 5 1e308 1e308 100 (-0.03) Call 0.0001 100)
    = false.
Proof.
  split; [lia|]. repeat split; vm_compute; reflexivity.
Qed.

(** C6 fails as stated: for no host is there a test on the returned number
    that tells converged runs from the others.  At expiry, a market price equal
    to the intrinsic value converges at once and a market price far from it
    breaks on the zero vega; both runs return 0.3. *)
Lemma no_convergence_tag :
  ~ exists Math_exp Math_log tell, tells_convergence Math_exp Math_log tell.
Proof.
  intros (Math_exp & Math_log & tell & H).
  pose proof (H 5 105 100 0 0.05 Call 0.0001 100%nat) as Hc.
  pose proof (H 50 105 100 0 0.05 Call 0.0001 100%nat) as Hv.
  unfold impliedVolatility, impliedVolatility_exit, impliedVolatility_run in Hc, Hv.
  rewrite iv_loop_at_expiry in Hc, Hv by reflexivity.
  simpl fst in Hc, Hv. simpl snd in Hc, Hv.
  destruct Hc as [_ Hc]. destruct Hv as [Hv _].
  specialize (Hv (Hc eq_refl)). discriminate.
Qed.

(** The same on a run with time left (sample host): a call with S = 100,
    K = 150, T = 0.02, r = 0.05 quoted at 14.7798 converges at the upper bound
    5.0, and quoted at 14.78 exhausts 100 iterations; both return 5.0. *)
Example converged_and_exhausted_return_the_same :
  impliedVolatility_run sample_exp sample_log 14.7798 100 150 0.02 0.05 Call 0.0001 100
    = (5.0, Converged) /\
  impliedVolatility_run sample_exp sample_log 14.78 100 150 0.02 0.05 Call 0.0001 100
    = (5.0, Exhausted).
Proof. split; vm_compute; reflexivity. Qed.

(** C6, as amended. On every exit [impliedVolatility] returns the bare
    sigma; when the budget is exhausted without meeting the tolerance this is
    the last iterate, i.e. [maxIterations] Newton updates, each clamped to
    [0.01, 5.0], applied to 0.3.  Nothing in the result marks it as
    non-converged. *)
Theorem exhausted_returns_last_iterate
    (Math_exp Math_log : float -> float) (marketPrice S K T r : float)
    (optionType : option_type) (tolerance : float) (maxIterations : nat) :
  impliedVolatility_exit Math_exp Math_log marketPrice S K T r optionType tolerance
    maxIterations = Exhausted ->
  impliedVolatility Math_exp Math_log marketPrice S K T r optionType tolerance
    maxIterations =
  Nat.iter maxIterations
    (newtonStep Math_exp Math_log marketPrice S K T r optionType) 0.3.
Proof.
  unfold impliedVolatility, impliedVolatility_exit, impliedVolatility_run.
  apply iv_loop_exhausted.
Qed.

Lemma exhausted_returns_last_iterate_witness :
  impliedVolatility sample_exp sample_log 14.78 100 150 0.02 0.05 Call 0.0001 100 =
  Nat.iter 100 (newtonStep sample_exp sample_log 14.78 100 150 0.02 0.05 Call) 0.3.
Proof.
  apply (exhausted_returns_last_iterate sample_exp sample_log 14.78 100 150 0.02 0.05
           Call 0.0001 100).
  vm_compute. reflexivity.
Defined.

(** ** Fuel

    The fuel only bounds the number of loop tests: once a run returns,
    more fuel returns the same. *)

Section Fuel.

Variable legs : list leg.

Lemma bisect_fuel_mono (n m : nat) (low high lastPL : float) (acc r : list float) :
  bisect legs n low high lastPL acc = Some r -> (n <= m)%nat ->
  bisect legs m low high lastPL acc = Some r.
Proof.
  revert m low high lastPL acc. induction n as [|n IH]; intros m low high lastPL acc.
  - simpl. destruct (JS.gtb _ _) eqn:E; [discriminate|].
    intros H _. destruct m; simpl; rewrite E; exact H.
  - intros H Hle. destruct m as [|m]; [lia|].
    simpl in *. destruct (JS.gtb _ _); [|exact H].
    destruct (abs _ <? 0.01); [exact H|].
    destruct (crosses _ _); apply IH; auto; lia.
Qed.

Lemma scan_fuel_mono (n m : nat) (endPrice price : float) (lastPL : option float)
    (acc r : list float) :
  scan legs n endPrice price lastPL acc = Some r -> (n <= m)%nat ->
  scan legs m endPrice price lastPL acc = Some r.
Proof.
  revert m price lastPL acc. induction n as [|n IH]; intros m price lastPL acc.
  - simpl. destruct (price <=? endPrice) eqn:E; [discriminate|].
    intros H _. destruct m; simpl; rewrite E; exact H.
  - intros H Hle. destruct m as [|m]; [lia|].
    simpl in *. destruct (price <=? endPrice); [|exact H].
    destruct lastPL as [last|].
    + destruct (crosses last _).
      * destruct (bisect legs n _ _ _ _) as [acc'|] eqn:Eb; [|discriminate].
        rewrite (bisect_fuel_mono n m _ _ _ _ _ Eb) by lia.
        apply IH; auto; lia.
      * apply IH; auto; lia.
    + apply IH; auto; lia.
Qed.

Lemma calculateBreakevens_fuel_mono (n m : nat) (r : list float) :
  calculateBreakevens n legs = Some r -> (n <= m)%nat ->
  calculateBreakevens m legs = Some r.
Proof.
  unfold calculateBreakevens. cbv zeta.
  destruct (scan legs n _ _ _ _) as [acc|] eqn:E; [|discriminate].
  intros H Hle. now rewrite (scan_fuel_mono n m _ _ _ _ _ E Hle).
Qed.

Lemma sample_fuel_mono (n m : nat) (endPrice price maxP maxL : float) (r : float * float) :
  sample legs n endPrice price maxP maxL = Some r -> (n <= m)%nat ->
  sample legs m endPrice price maxP maxL = Some r.
Proof.
  revert m price maxP maxL. induction n as [|n IH]; intros m price maxP maxL.
  - simpl. destruct (price <=? endPrice) eqn:E; [discriminate|].
    intros H _. destruct m; simpl; rewrite E; exact H.
  - intros H Hle. destruct m as [|m]; [lia|].
    simpl in *. destruct (price <=? endPrice); [|exact H].
    apply IH; auto; lia.
Qed.

Lemma calculateMaxProfitLoss_fuel_mono (n m : nat) (r : extrema) :
  calculateMaxProfitLoss n legs = Some r -> (n <= m)%nat ->
  calculateMaxProfitLoss m legs = Some r.
Proof.
  unfold calculateMaxProfitLoss. cbv zeta.
  destruct (sample legs n _ _ _ _) as [acc|] eqn:E; [|discriminate].
  intros H Hle. now rewrite (sample_fuel_mono n m _ _ _ _ _ E Hle).
Qed.

End Fuel.

(** ** Breakevens and extrema *)

(** The bisection records a breakeven only on its [Math.abs(midPL) < 0.01]
    exit; when the bracket shrinks to width 0.01 first, nothing is pushed. *)
Lemma bisect_pushes_only_near_zero (legs : list leg) (fuel : nat)
    (low high lastPL : float) (acc r : list float) :
  bisect legs fuel low high lastPL acc = Some r ->
  r = acc \/
  exists mid, r = acc ++ [mid] /\
    (abs (calculatePLAtExpiration legs mid) <? 0.01) = true.
Proof.
  revert low high lastPL. induction fuel as [|fuel IH]; intros low high lastPL; simpl.
  - destruct (JS.gtb _ _); [discriminate|]. intros H. injection H as <-. now left.
  - destruct (JS.gtb _ _); [|intros H; injection H as <-; now left].
    destruct (abs _ <? 0.01) eqn:E.
    + intros H. injection H as <-. right. eexists. split; [reflexivity|exact E].
    + destruct (crosses _ _); apply IH.
Qed.

(** C1, on the input where the code departs from it.  For the single long
    call with strike 100, premium 5 and quantity 1 the expiration P&L at
    K + p = 105 is 0, yet [calculateBreakevens] returns no breakeven: the
    brackets [104.75, 105] and [105, 105.25] are halved five times, down to
    width 0.0078, the midpoint P&L (100 times the distance to 105) never gets
    under 0.01, and the bisection pushes nothing on the width exit. *)
Theorem long_call_breakeven_missed :
  calculatePLAtExpiration [longCall 100 5] (100 + 5) = 0 /\
  calculateBreakevens 1000 [longCall 100 5] = Some [].
Proof. split; vm_compute; reflexivity. Qed.

(** The zero need not lie on the grid for this: premium 2.37 gives none
    either. *)
Example long_call_breakeven_missed_off_grid :
  calculateBreakevens 1000 [longCall 100 2.37] = Some [].
Proof. vm_compute. reflexivity. Qed.

(** The same for every larger budget of loop tests. *)
Lemma long_call_breakeven_missed_any_fuel (fuel : nat) :
  (1000 <= fuel)%nat -> calculateBreakevens fuel [longCall 100 5] = Some [].
Proof.
  apply calculateBreakevens_fuel_mono. vm_compute. reflexivity.
Qed.

(** A breakeven is found when it is a midpoint of the bisection: premium
    5.125 puts it at 105.125, the centre of a grid cell. *)
Example long_call_breakeven_found :
  calculateBreakevens 1000 [longCall 100 5.125] = Some [105.13].
Proof. vm_compute. reflexivity. Qed.

(** C2 fails as stated: for the strategy with zero legs
    [calculateMaxProfitLoss] returns, and neither field of its result is
    [null]. *)
Lemma empty_strategy_extrema_not_null :
  exists res,
    calculateMaxProfitLoss 1 [] = Some res /\
    maxProfit res <> VNull /\ maxLoss res <> VNull.
Proof. eexists. split; [reflexivity|]. split; discriminate. Qed.

(** C2, as amended.  With zero legs [calculateBreakevens] returns the empty
    list, and [calculateMaxProfitLoss] returns the number 0 for both fields,
    not [null]: the grid is empty (it runs from [Infinity] to [-Infinity]),
    but the two boundary samples are still taken and are 0, so the [null]
    branches of the result are not reached.  Both functions return (for
    every fuel), so neither raises. *)
Theorem empty_strategy_results (fuel : nat) :
  calculateBreakevens fuel [] = Some [] /\
  calculateMaxProfitLoss fuel [] = Some {| maxProfit := VNum 0; maxLoss := VNum 0 |}.
Proof. destruct fuel; split; reflexivity. Qed.

Lemma eqb_leb (x y : float) : (x =? y) = true -> (x <=? y) = true.
Proof.
  rewrite eqb_spec, leb_spec. unfold SFeqb, SFleb.
  destruct (SFcompare _ _) as [[]|]; congruence.
Qed.

Lemma leb_refl (x : float) : is_nan x = false -> (x <=? x) = true.
Proof.
  unfold is_nan. intros H. apply eqb_leb. now destruct (x =? x).
Qed.

(** [Math.max] dominates its second argument, unless it is NaN. *)
Lemma max2_ge_r (a b : float) :
  is_nan (JS.max2 a b) = false -> (b <=? JS.max2 a b) = true.
Proof.
  unfold JS.max2.
  destruct (is_nan a) eqn:Ha; [intros H; vm_compute in H; discriminate|].
  destruct (is_nan b) eqn:Hb; [intros H; vm_compute in H; discriminate|].
  simpl orb. cbv iota. intros _.
  destruct (a <? b) eqn:Hab; [now apply leb_refl|].
  destruct (b <? a) eqn:Hba; [now apply ltb_leb|].
  destruct (get_sign a); [now apply leb_refl | now apply not_ltb_leb].
Qed.

(** C8, on the input where the code departs from it.  For the long straddle
    with K = 100 and premiums 5 and 5, [calculateMaxProfitLoss] reports the
    finite number 29000 as [maxProfit], and [getStrategySummary] passes it
    on: it is the P&L at the boundary sample 2 * (100 + 100) = 400, the
    largest price the method looks at.  The profit is not bounded by it (at
    price 1000 the P&L is 89000), and the [null] that the result reserves for
    an unbounded side is not returned. *)
Theorem straddle_maxProfit_finite :
  calculateMaxProfitLoss 1000 (longStraddle 100 5 5)
    = Some {| maxProfit := VNum 29000; maxLoss := VNum (-999.00000000000091) |} /\
  finite_number (VNum 29000) = true /\
  calculatePLAtExpiration (longStraddle 100 5 5) 400 = 29000 /\
  calculatePLAtExpiration (longStraddle 100 5 5) 1000 = 89000 /\
  option_map s_maxProfit
    (getStrategySummary sample_exp sample_log 0 1000 (longStraddle 100 5 5) 100 0.05 0.25)
    = Some (VNum 29000).
Proof. repeat split; vm_compute; reflexivity. Qed.

(** ** The P&L curve *)

Section Curve.

Variables Math_exp Math_log : float -> float.
Variable now : float.
Variable legs : list leg.

(** Both sequences are pushed in step: each point of [atExpiration] is
    [(price, calculatePLAtExpiration(price))], each point of [current] is
    [(price, calculateCurrentPL(price))], for the same visited prices. *)
Lemma curve_spec (fuel : nat) (endPrice step price : float) (a c : list point) :
  curve Math_exp Math_log now legs fuel endPrice step price a c =
  option_map
    (fun ps =>
       {| atExpiration :=
            a ++ map (fun p => mkPoint p (calculatePLAtExpiration legs p)) ps;
          current :=
            c ++ map (fun p => mkPoint p
                                 (calculateCurrentPL Math_exp Math_log now legs p 0.05 0.25))
                   ps |})
    (curve_prices fuel endPrice step price).
Proof.
  revert price a c. induction fuel as [|fuel IH]; intros price a c; simpl.
  - destruct (price <=? endPrice); simpl; [reflexivity|].
    now rewrite !app_nil_r.
  - destruct (price <=? endPrice); simpl; [|now rewrite !app_nil_r].
    rewrite IH. destruct (curve_prices fuel endPrice step (price + step)); simpl;
      [|reflexivity].
    now rewrite <- !app_assoc.
Qed.

(** The two sequences of a returned curve have the same length and carry
    the same price at every index. *)
Lemma generatePLCurve_parallel (fuel : nat) (priceRange : option float)
    (currentStockPrice : float) (d : plData) :
  generatePLCurve Math_exp Math_log now fuel legs priceRange currentStockPrice = Some d ->
  map stockPrice (atExpiration d) = map stockPrice (current d) /\
  length (atExpiration d) = length (current d).
Proof.
  unfold generatePLCurve. cbv zeta. rewrite curve_spec.
  destruct (curve_prices _ _ _ _) as [ps|]; [|discriminate].
  simpl. intros H. injection H as <-. simpl.
  rewrite !map_map. simpl. split; [reflexivity|].
  now rewrite !length_map.
Qed.

End Curve.

(** C9, on the code.  For the single long call (strike 100, premium 5), no
    price range and stock price 100, the range is 50, so the prices run over
    [50, 150] with step (150 - 50) / 100 = 1, and the loop condition
    [price <= endPrice] admits 50, 51, ..., 150: each sequence has 101
    points, not 100.  The two sequences are index-aligned by price. *)
Theorem plcurve_has_101_points :
  exists d,
    generatePLCurve sample_exp sample_log 0 1000 [longCall 100 5] None 100 = Some d /\
    length (atExpiration d) = 101%nat /\
    length (current d) = 101%nat /\
    map stockPrice (atExpiration d) = map stockPrice (current d) /\
    nth 0 (map stockPrice (atExpiration d)) nan = 50 /\
    nth 1 (map stockPrice (atExpiration d)) nan = 51 /\
    nth 100 (map stockPrice (atExpiration d)) nan = 150.
Proof.
  eexists. split; [vm_compute; reflexivity|].
  repeat split; vm_compute; reflexivity.
Qed.

(** A further run of [generatePLCurve]: with price range 20 the step 0.4 is
    not a binary64 value, the running sum overshoots 120, and the loop stops
    after 100 points.  The number of points depends on rounding. *)
Example plcurve_can_have_100_points :
  option_map (fun d => (length (atExpiration d), length (current d)))
    (generatePLCurve sample_exp sample_log 0 1000 [longCall 100 5] (Some 20) 100)
  = Some (100%nat, 100%nat).
Proof. vm_compute. reflexivity. Qed.

(** ** Closed-form prices *)

Lemma ltb_not_leb (x y : float) : (x <? y) = true -> (y <=? x) = false.
Proof.
  rewrite ltb_spec, leb_spec. unfold SFltb, SFleb.
  rewrite (SFcompare_antisym (Prim2SF x) (Prim2SF y)).
  destruct (SFcompare _ _) as [[]|]; simpl; congruence.
Qed.

(** C5, on the input where the code departs from it.  With S = 100,
    K = 125, T = 0.02, r = 0.05, sigma = 0.2 (all positive) [callPrice]
    returns about -1.16e-15, and [putPrice] with S = 125, K = 100 about
    -4.29e-15: the two tail probabilities are computed as 0.5 * (1 - y) with
    y next to 1, each with a rounding error of the order of 1e-16, and the
    difference comes out negative.  The T > 0 path has no floor, whereas the
    copy of the kernel in the [pages/api/calculate] route ends in
    [Math.max(price, 0)] and returns 0 on the same inputs.  The negative
    price reaches a caller: it is the [price] of the response of
    [handleSingleOption] for an option that expires in 7.3 days
    (630720000 ms, T = 0.02). *)
Theorem price_can_be_negative :
  callPrice sample_exp sample_log 100 125 0.02 0.05 0.2 = -1.158909735547545e-15 /\
  (callPrice sample_exp sample_log 100 125 0.02 0.05 0.2 <? 0) = true /\
  blackScholesCall sample_exp sample_log 100 125 0.02 0.05 0.2 = 0 /\
  putPrice sample_exp sample_log 125 100 0.02 0.05 0.2 = -4.2909481736262717e-15 /\
  (putPrice sample_exp sample_log 125 100 0.02 0.05 0.2 <? 0) = true /\
  blackScholesPut sample_exp sample_log 125 100 0.02 0.05 0.2 = 0 /\
  timeToExpiration 0 630720000 = 0.02 /\
  so_price (handleSingleOption sample_exp sample_log 0 125 630720000 Call 100 0.05 0.2)
    = -1.158909735547545e-15.
Proof. repeat split; vm_compute; reflexivity. Qed.

(** ** Put-call parity *)


(** The values that compare equal to 0 are the two zeros. *)
Lemma eqb_zero_cases (x : float) : (x =? 0) = true -> x = 0 \/ x = neg_zero.
Proof.
  intros H. rewrite <- (SF2Prim_Prim2SF x). rewrite eqb_spec in H.
  change (Prim2SF 0) with (S754_zero false) in H.
  destruct (Prim2SF x) as [[]|[]| |[] m e]; try discriminate H; [right | left]; reflexivity.
Qed.



(** The sample host has [Math.exp(-0) = 1], as ECMAScript requires. *)
Example sample_exp_neg_zero : sample_exp neg_zero = 1.
Proof. reflexivity. Qed.


(** * Further properties of the code *)

(** ** More on the order of binary64 values *)

Lemma SFleb_trans (x y z : spec_float) :
  SFleb x y = true -> SFleb y z = true -> SFleb x z = true.
Proof.
  unfold SFleb, SFcompare.
  destruct x as [sx|sx| |sx mx ex], y as [sy|sy| |sy my ey], z as [sz|sz| |sz mz ez];
    try destruct sx; try destruct sy; try destruct sz;
    try discriminate; try reflexivity;
    change (Pos.compare_cont Eq) with Pos.compare;
    destruct (Z.compare_spec ex ey), (Z.compare_spec ey ez), (Z.compare_spec ex ez);
    try discriminate; try reflexivity; try lia; subst;
    destruct (Pos.compare_spec mx my), (Pos.compare_spec my mz), (Pos.compare_spec mx mz);
    simpl; try discriminate; try reflexivity; try lia.
Qed.

Lemma leb_trans (x y z : float) :
  (x <=? y) = true -> (y <=? z) = true -> (x <=? z) = true.
Proof. rewrite !leb_spec. apply SFleb_trans. Qed.

Lemma leb_not_nan (x y : float) :
  (x <=? y) = true -> is_nan x = false /\ is_nan y = false.
Proof.
  unfold is_nan. rewrite leb_spec, !eqb_spec. unfold SFleb, SFeqb.
  destruct (Prim2SF x) as [[]|[]| |[] mx ex], (Prim2SF y) as [[]|[]| |[] my ey];
    simpl; try discriminate; intros _; rewrite ?Z.compare_refl, ?Pos.compare_cont_refl;
    split; reflexivity.
Qed.

Lemma max2_not_nan (a b : float) :
  is_nan (JS.max2 a b) = false -> is_nan a = false /\ is_nan b = false.
Proof.
  unfold JS.max2. destruct (is_nan a), (is_nan b); simpl; intros H;
    try (vm_compute in H; discriminate); split; reflexivity.
Qed.

Lemma min2_not_nan (a b : float) :
  is_nan (JS.min2 a b) = false -> is_nan a = false /\ is_nan b = false.
Proof.
  unfold JS.min2. destruct (is_nan a), (is_nan b); simpl; intros H;
    try (vm_compute in H; discriminate); split; reflexivity.
Qed.

Lemma max2_ge_l (a b : float) :
  is_nan (JS.max2 a b) = false -> (a <=? JS.max2 a b) = true.
Proof.
  intros H. destruct (max2_not_nan a b H) as [Ha Hb]. unfold JS.max2.
  rewrite Ha, Hb. simpl orb. cbv iota.
  destruct (a <? b) eqn:Hab; [now apply ltb_leb|].
  destruct (b <? a) eqn:Hba; [now apply leb_refl|].
  destruct (get_sign a); [now apply not_ltb_leb | now apply leb_refl].
Qed.

Lemma min2_le_l (a b : float) :
  is_nan (JS.min2 a b) = false -> (JS.min2 a b <=? a) = true.
Proof.
  intros H. destruct (min2_not_nan a b H) as [Ha Hb]. unfold JS.min2.
  rewrite Ha, Hb. simpl orb. cbv iota.
  destruct (a <? b) eqn:Hab; [now apply leb_refl|].
  destruct (b <? a) eqn:Hba; [now apply ltb_leb|].
  destruct (get_sign a); [now apply leb_refl | now apply not_ltb_leb].
Qed.

Lemma min2_le_r (a b : float) :
  is_nan (JS.min2 a b) = false -> (JS.min2 a b <=? b) = true.
Proof.
  intros H. destruct (min2_not_nan a b H) as [Ha Hb]. unfold JS.min2.
  rewrite Ha, Hb. simpl orb. cbv iota.
  destruct (a <? b) eqn:Hab; [now apply ltb_leb|].
  destruct (b <? a) eqn:Hba; [now apply leb_refl|].
  destruct (get_sign a); [now apply not_ltb_leb | now apply leb_refl].
Qed.

(** There is one NaN. *)
Lemma nan_unique (x : float) : is_nan x = true -> x = nan.
Proof.
  intros H. rewrite <- (SF2Prim_Prim2SF x).
  unfold is_nan in H. rewrite eqb_spec in H. unfold SFeqb in H.
  destruct (Prim2SF x) as [[]|[]| |[] m e]; simpl in H;
    rewrite ?Z.compare_refl, ?Pos.compare_cont_refl in H; try discriminate.
  reflexivity.
Qed.

Lemma ltb_neg_infinity (x : float) : (x <? neg_infinity) = false.
Proof.
  rewrite ltb_spec. change (Prim2SF neg_infinity) with (S754_infinity true).
  unfold SFltb. destruct (Prim2SF x) as [[]|[]| |[] m e]; reflexivity.
Qed.

Lemma ltb_infinity (x : float) : (infinity <? x) = false.
Proof.
  rewrite ltb_spec. change (Prim2SF infinity) with (S754_infinity false).
  unfold SFltb. destruct (Prim2SF x) as [[]|[]| |[] m e]; reflexivity.
Qed.

(** [-Infinity] and [Infinity] are neutral for [Math.max] and [Math.min]. *)
Lemma max2_neg_infinity_l (x : float) : JS.max2 neg_infinity x = x.
Proof.
  unfold JS.max2. change (is_nan neg_infinity) with false. simpl orb.
  destruct (is_nan x) eqn:Hx; [symmetry; now apply nan_unique|].
  destruct (neg_infinity <? x); [reflexivity|].
  rewrite ltb_neg_infinity. reflexivity.
Qed.

Lemma min2_infinity_l (x : float) : JS.min2 infinity x = x.
Proof.
  unfold JS.min2. change (is_nan infinity) with false. simpl orb.
  destruct (is_nan x) eqn:Hx; [symmetry; now apply nan_unique|].
  rewrite ltb_infinity.
  destruct (x <? infinity); reflexivity.
Qed.

(** A running [Math.max] that ends on a number dominates its start and
    every value folded in; dually for [Math.min]. *)
Lemma fold_max2_ge (l : list float) (a : float) :
  is_nan (fold_left JS.max2 l a) = false ->
  (a <=? fold_left JS.max2 l a) = true /\
  Forall (fun x => (x <=? fold_left JS.max2 l a) = true) l.
Proof.
  revert a. induction l as [|x l IH]; intros a H; simpl in *.
  - split; [now apply leb_refl | constructor].
  - destruct (IH _ H) as [Hacc Hall].
    destruct (leb_not_nan _ _ Hacc) as [Hm _].
    split; [|constructor; [|exact Hall]].
    + exact (leb_trans _ _ _ (max2_ge_l a x Hm) Hacc).
    + exact (leb_trans _ _ _ (max2_ge_r a x Hm) Hacc).
Qed.

Lemma fold_min2_le (l : list float) (a : float) :
  is_nan (fold_left JS.min2 l a) = false ->
  (fold_left JS.min2 l a <=? a) = true /\
  Forall (fun x => (fold_left JS.min2 l a <=? x) = true) l.
Proof.
  revert a. induction l as [|x l IH]; intros a H; simpl in *.
  - split; [now apply leb_refl | constructor].
  - destruct (IH _ H) as [Hacc Hall].
    destruct (leb_not_nan _ _ Hacc) as [_ Hm].
    split; [|constructor; [|exact Hall]].
    + exact (leb_trans _ _ _ Hacc (min2_le_l a x Hm)).
    + exact (leb_trans _ _ _ Hacc (min2_le_r a x Hm)).
Qed.

(** ** The extrema scan bounds every sample *)

Section Extrema.

Variable legs : list leg.

Let PL := calculatePLAtExpiration legs.

(** The grid loop is a running maximum and minimum over the visited
    prices. *)
Lemma sample_spec (fuel : nat) (endPrice price maxP maxL : float) :
  sample legs fuel endPrice price maxP maxL =
  option_map
    (fun ps => (fold_left JS.max2 (map PL ps) maxP, fold_left JS.min2 (map PL ps) maxL))
    (curve_prices fuel endPrice 0.5 price).
Proof.
  revert price maxP maxL. induction fuel as [|fuel IH]; intros price maxP maxL; simpl.
  - destruct (price <=? endPrice); reflexivity.
  - destruct (price <=? endPrice); [|reflexivity].
    rewrite IH. destruct (curve_prices fuel endPrice 0.5 (price + 0.5)); reflexivity.
Qed.

Lemma calculateMaxProfitLoss_spec (fuel : nat) :
  calculateMaxProfitLoss fuel legs =
  option_map
    (fun ps =>
       let maxP := fold_left JS.max2 (map PL ps) neg_infinity in
       let maxL := fold_left JS.min2 (map PL ps) infinity in
       {| maxProfit := if maxP =? neg_infinity then VNull else VNum maxP;
          maxLoss := if maxL =? infinity then VNull else VNum maxL |})
    (extremaSamples fuel legs).
Proof.
  unfold calculateMaxProfitLoss, extremaSamples, extremaStartPrice, extremaEndPrice.
  cbv zeta. rewrite sample_spec.
  destruct (curve_prices _ _ _ _) as [ps|]; [|reflexivity]. simpl.
  unfold JS.max_list, JS.min_list. rewrite !map_app, !fold_left_app. simpl.
  now rewrite max2_neg_infinity_l, min2_infinity_l.
Qed.

(** X1.  Whenever [calculateMaxProfitLoss] returns, a reported [maxProfit] that
    is a number (not NaN) is at least the expiration P&L at every price the
    scan evaluated, and a reported [maxLoss] is at most each of them. *)
Theorem extrema_bound_every_sample (fuel : nat) (res : extrema) :
  calculateMaxProfitLoss fuel legs = Some res ->
  exists ps,
    extremaSamples fuel legs = Some ps /\
    (forall x, maxProfit res = VNum x -> is_nan x = false ->
       Forall (fun p => (PL p <=? x) = true) ps) /\
    (forall y, maxLoss res = VNum y -> is_nan y = false ->
       Forall (fun p => (y <=? PL p) = true) ps).
Proof.
  rewrite calculateMaxProfitLoss_spec.
  destruct (extremaSamples fuel legs) as [ps|]; [|discriminate].
  simpl. intros H. injection H as <-. exists ps. split; [reflexivity|]. simpl. split.
  - intros x. destruct (_ =? neg_infinity); [discriminate|].
    intros H Hx. injection H as <-.
    apply fold_max2_ge in Hx. destruct Hx as [_ Hall].
    now rewrite Forall_map in Hall.
  - intros y. destruct (_ =? infinity); [discriminate|].
    intros H Hy. injection H as <-.
    apply fold_min2_le in Hy. destruct Hy as [_ Hall].
    now rewrite Forall_map in Hall.
Qed.

(** X2.  The reported maximum loss never exceeds the reported maximum profit. *)
Theorem maxLoss_le_maxProfit (fuel : nat) (res : extrema) (x y : float) :
  calculateMaxProfitLoss fuel legs = Some res ->
  maxProfit res = VNum x -> maxLoss res = VNum y ->
  is_nan x = false -> is_nan y = false ->
  (y <=? x) = true.
Proof.
  intros Hres Hx Hy Hnx Hny.
  destruct (extrema_bound_every_sample fuel res Hres) as (ps & Hps & Hmax & Hmin).
  specialize (Hmax x Hx Hnx). specialize (Hmin y Hy Hny).
  unfold extremaSamples in Hps.
  destruct (curve_prices _ _ _ _) as [grid|]; [|discriminate].
  simpl in Hps. injection Hps as <-.
  apply Forall_app in Hmax. destruct Hmax as [_ Hmax].
  apply Forall_app in Hmin. destruct Hmin as [_ Hmin].
  inversion Hmax as [|? ? Hx1 _]; subst. inversion Hmin as [|? ? Hy1 _]; subst.
  exact (leb_trans _ _ _ Hy1 Hx1).
Qed.

End Extrema.

(** ** What [calculateBreakevens] reports *)

Lemma eqb_zero_sign (z : float) : (neg_zero =? z) = (0 =? z).
Proof.
  rewrite !eqb_spec. change (Prim2SF neg_zero) with (S754_zero true).
  change (Prim2SF 0) with (S754_zero false).
  destruct (Prim2SF z) as [[]|[]| |[] m e]; reflexivity.
Qed.

(** A [Set] compares the stored form of a value as it compares the value. *)
Lemma same_value_zero_set_value (x z : float) :
  JS.same_value_zero (JS.set_value x) z = JS.same_value_zero x z.
Proof.
  unfold JS.set_value. destruct (x =? 0) eqn:E; [|reflexivity].
  destruct (eqb_zero_cases x E) as [-> | ->]; [reflexivity|].
  unfold JS.same_value_zero. rewrite eqb_zero_sign. reflexivity.
Qed.

Section Breakevens.

Variable legs : list leg.






End Breakevens.

Lemma existsb_pointwise (f g : float -> bool) (l : list float) :
  (forall z, f z = g z) -> existsb f l = existsb g l.
Proof. intros H. induction l as [|a l IH]; simpl; [reflexivity|]. now rewrite H, IH. Qed.

(** The values that [[...new Set(xs)]] keeps are pairwise different: a
    later one is never equal (as a [Set] compares) to an earlier one. *)
Lemma set_spread_from_distinct (seen xs : list float) :
  ForallOrdPairs (fun x y => JS.same_value_zero y x = false) (JS.set_spread_from seen xs) /\
  Forall (fun y => existsb (JS.same_value_zero y) seen = false) (JS.set_spread_from seen xs).
Proof.
  revert seen. induction xs as [|x xs IH]; intros seen; simpl.
  - split; constructor.
  - destruct (existsb (JS.same_value_zero x) seen) eqn:E; [apply IH|].
    destruct (IH (JS.set_value x :: seen)) as [Hpairs Hseen]. split.
    + constructor; [|exact Hpairs].
      eapply Forall_impl; [|exact Hseen]. simpl. intros y Hy.
      now apply orb_false_elim in Hy.
    + constructor.
      * rewrite <- E. apply existsb_pointwise. intros z.
        apply same_value_zero_set_value.
      * eapply Forall_impl; [|exact Hseen]. simpl. intros y Hy.
        now apply orb_false_elim in Hy.
Qed.

(** X4.  [calculateBreakevens] never reports the same price twice. *)
Theorem breakevens_are_distinct (fuel : nat) (legs : list leg) (bes : list float) :
  calculateBreakevens fuel legs = Some bes ->
  ForallOrdPairs (fun x y => (y =? x) = false) bes.
Proof.
  unfold calculateBreakevens. cbv zeta.
  destruct (scan legs fuel _ _ _ _) as [raw|]; [|discriminate].
  intros H. injection H as <-.
  destruct (set_spread_from_distinct [] (map (fun be => JS.round (be * 100) / 100) raw))
    as [Hpairs _].
  unfold JS.set_spread.
  induction Hpairs as [|x l Hx Hl IH]; constructor; [|exact IH].
  eapply Forall_impl; [|exact Hx]. simpl. intros y Hy.
  unfold JS.same_value_zero in Hy. now apply orb_false_elim in Hy.
Qed.

(** A breakeven at price 0 is reported as [+0], whatever the sign of the
    rounded midpoint: for this short put the bisection pushes the midpoint
    -0.0048125, [Math.round(-0.48125) / 100] is [-0], and the [Set] stores
    [+0]. *)
Example breakeven_zero_is_stored_positive :
  calculateBreakevens 1000 [mkLeg Short 10.003 10.0079125 1 Put 0] = Some [0].
Proof. vm_compute. reflexivity. Qed.

(** ** How the implied-volatility solver leaves its loop *)

Section SolverExits.

Variables Math_exp Math_log : float -> float.
Variables marketPrice S K T r : float.
Variable optionType : option_type.
Variable tolerance : float.

Let loop := iv_loop Math_exp Math_log marketPrice S K T r optionType tolerance.
Let price := modelPrice Math_exp Math_log S K T r optionType.

Lemma iv_loop_exit_spec (n : nat) (sigma : float) :
  match snd (loop n sigma) with
  | Converged => (abs (price (fst (loop n sigma)) - marketPrice) <? tolerance) = true
  | VegaZero =>
      (abs (price (fst (loop n sigma)) - marketPrice) <? tolerance) = false /\
      (vega Math_exp Math_log S K T r (fst (loop n sigma)) * 100 =? 0) = true
  | Exhausted => True
  end.
Proof.
  revert sigma. induction n as [|n IH]; intros sigma; [exact I|].
  unfold loop. simpl. fold price.
  destruct (abs (price sigma - marketPrice) <? tolerance) eqn:Etol; [exact Etol|].
  destruct (vega Math_exp Math_log S K T r sigma * 100 =? 0) eqn:Evega;
    [simpl; now split|].
  apply IH.
Qed.

Lemma iv_loop_budget (n m : nat) (sigma : float) :
  snd (loop n sigma) <> Exhausted -> (n <= m)%nat -> loop m sigma = loop n sigma.
Proof.
  revert m sigma. induction n as [|n IH]; intros m sigma H Hle.
  - now contradiction H.
  - destruct m as [|m]; [lia|]. unfold loop in *. simpl in *.
    destruct (abs _ <? tolerance); [reflexivity|].
    destruct (_ =? 0); [reflexivity|].
    apply IH; [exact H | lia].
Qed.

End SolverExits.

(** X5.  When [impliedVolatility] leaves through its [return sigma] inside the
    loop, the model price at the returned sigma is within the tolerance of
    the market price; when it leaves through the [break], the tolerance is
    not met and vega at the returned sigma is zero. *)
Theorem impliedVolatility_exit_spec
    (Math_exp Math_log : float -> float) (marketPrice S K T r : float)
    (optionType : option_type) (tolerance : float) (maxIterations : nat) :
  let sigma :=
    impliedVolatility Math_exp Math_log marketPrice S K T r optionType tolerance
      maxIterations in
  match impliedVolatility_exit Math_exp Math_log marketPrice S K T r optionType tolerance
          maxIterations with
  | Converged =>
      (abs (modelPrice Math_exp Math_log S K T r optionType sigma - marketPrice)
         <? tolerance) = true
  | VegaZero =>
      (abs (modelPrice Math_exp Math_log S K T r optionType sigma - marketPrice)
         <? tolerance) = false /\
      (vega Math_exp Math_log S K T r sigma * 100 =? 0) = true
  | Exhausted => True
  end.
Proof.
  cbv zeta. unfold impliedVolatility, impliedVolatility_exit, impliedVolatility_run.
  apply iv_loop_exit_spec.
Qed.

(** X6.  A run that ended by convergence or on a zero vega is not changed by a
    larger iteration budget. *)
Theorem impliedVolatility_budget_irrelevant
    (Math_exp Math_log : float -> float) (marketPrice S K T r : float)
    (optionType : option_type) (tolerance : float) (n m : nat) :
  impliedVolatility_exit Math_exp Math_log marketPrice S K T r optionType tolerance n
    <> Exhausted ->
  (n <= m)%nat ->
  impliedVolatility_run Math_exp Math_log marketPrice S K T r optionType tolerance m =
  impliedVolatility_run Math_exp Math_log marketPrice S K T r optionType tolerance n.
Proof.
  unfold impliedVolatility_exit, impliedVolatility_run. apply iv_loop_budget.
Qed.

Lemma impliedVolatility_budget_irrelevant_witness :
  impliedVolatility_run sample_exp sample_log 14.7798 100 150 0.02 0.05 Call 0.0001 100 =
  impliedVolatility_run sample_exp sample_log 14.7798 100 150 0.02 0.05 Call 0.0001 2.
Proof.
  apply (impliedVolatility_budget_irrelevant sample_exp sample_log 14.7798 100 150 0.02
           0.05 Call 0.0001 2 100).
  - vm_compute. discriminate.
  - lia.
Defined.

(** ** Time to expiration and expired legs *)

Lemma ltb_asym (x y : float) : (x <? y) = true -> (y <? x) = false.
Proof.
  intros H. destruct (y <? x) eqn:E; [|reflexivity].
  apply ltb_leb in E. rewrite (ltb_not_leb _ _ H) in E. discriminate.
Qed.

Lemma max2_zero_l_not_negative (x : float) : (JS.max2 0 x <? 0) = false.
Proof.
  unfold JS.max2. change (is_nan 0) with false. simpl orb.
  destruct (is_nan x); [reflexivity|].
  destruct (0 <? x) eqn:E; [now apply ltb_asym|].
  destruct (x <? 0); reflexivity.
Qed.

(** X7.  [timeToExpiration] is never negative, whatever the clock and the date
    are (an invalid date gives NaN). *)
Theorem timeToExpiration_not_negative (now expirationDate : float) :
  (timeToExpiration now expirationDate <? 0) = false.
Proof. unfold timeToExpiration. apply max2_zero_l_not_negative. Qed.

Lemma zero_cases (x : float) :
  is_nan x = false -> (x <? 0) = false -> (0 <? x) = false -> x = 0 \/ x = neg_zero.
Proof.
  intros Hn H1 H2. rewrite <- (SF2Prim_Prim2SF x).
  apply is_nan_false_spec in Hn.
  rewrite ltb_spec in H1, H2. change (Prim2SF 0) with (S754_zero false) in H1, H2.
  unfold SFltb in H1, H2.
  destruct (Prim2SF x) as [[]|[]| |[] m e]; simpl in H1, H2; try discriminate;
    try congruence; [right | left]; reflexivity.
Qed.

(** [Math.max(x, 0)] and [Math.max(0, x)] are the same number. *)
Lemma max2_zero_comm (x : float) : JS.max2 x 0 = JS.max2 0 x.
Proof.
  unfold JS.max2. change (is_nan 0) with false. rewrite orb_false_r. simpl orb.
  destruct (is_nan x) eqn:Hn; [reflexivity|].
  destruct (x <? 0) eqn:H1.
  - rewrite (ltb_asym _ _ H1). reflexivity.
  - destruct (0 <? x) eqn:H2; [reflexivity|].
    destruct (zero_cases x Hn H1 H2) as [-> | ->]; reflexivity.
Qed.

Section Expired.

Variables Math_exp Math_log : float -> float.
Variable now : float.

Lemma legCurrentPL_expired (stockPrice riskFreeRate impliedVol : float) (l : leg) :
  (timeToExpiration now (expiration l) <=? 0) = true ->
  legCurrentPL Math_exp Math_log now stockPrice riskFreeRate impliedVol l =
  legPLAtExpiration stockPrice l.
Proof.
  intros HT. unfold legCurrentPL, legPLAtExpiration, callPrice, putPrice. cbv zeta.
  rewrite HT, !max2_zero_comm. reflexivity.
Qed.

(** X8.  Once every leg has expired, the current-valuation P&L is the expiration
    P&L, at every price and for every rate and volatility. *)
Theorem calculateCurrentPL_expired
    (legs : list leg) (stockPrice riskFreeRate impliedVol : float) :
  Forall (fun l => (timeToExpiration now (expiration l) <=? 0) = true) legs ->
  calculateCurrentPL Math_exp Math_log now legs stockPrice riskFreeRate impliedVol =
  calculatePLAtExpiration legs stockPrice.
Proof.
  intros Hall. unfold calculateCurrentPL, calculatePLAtExpiration.
  generalize 0. induction Hall as [|l legs Hl _ IH]; intros acc; [reflexivity|].
  simpl. rewrite (legCurrentPL_expired _ _ _ _ Hl). apply IH.
Qed.

End Expired.

Lemma calculateCurrentPL_expired_witness :
  calculateCurrentPL sample_exp sample_log 1700000000000
    [mkLeg Long 100 5 1 Call 1600000000000; mkLeg Short 110 2 1 Call 1600000000000]
    107 0.05 0.25 =
  calculatePLAtExpiration
    [mkLeg Long 100 5 1 Call 1600000000000; mkLeg Short 110 2 1 Call 1600000000000] 107.
Proof.
  apply (calculateCurrentPL_expired sample_exp sample_log 1700000000000).
  repeat constructor.
Defined.

(** ** Greeks at expiry *)

(** X9.  At or past expiry [calculateAllGreeks] reports the intrinsic value as
    the price, a delta of 0 or of one full share (1 for a call, -1 for a
    put), and 0 for gamma, theta, vega and rho, whatever the rate and the
    volatility are. *)
Theorem calculateAllGreeks_at_expiry
    (Math_exp Math_log : float -> float) (S K T r sigma : float) (optionType : option_type) :
  (T <=? 0) = true ->
  let g := calculateAllGreeks Math_exp Math_log S K T r sigma optionType in
  g_price g = JS.max2 (if is_call optionType then S - K else K - S) 0 /\
  (g_delta g = 0 \/ g_delta g = if is_call optionType then 1 else -1) /\
  g_gamma g = 0 /\ g_theta g = 0 /\ g_vega g = 0 /\ g_rho g = 0.
Proof.
  intros HT. cbv zeta.
  unfold calculateAllGreeks, callPrice, putPrice, delta, gamma, theta, vega, rho.
  simpl. rewrite HT. repeat split.
  - destruct (is_call optionType); reflexivity.
  - destruct (is_call optionType); [destruct (JS.gtb S K) | destruct (S <? K)]; auto.
Qed.

Lemma calculateAllGreeks_at_expiry_witness :
  let g := calculateAllGreeks sample_exp sample_log 105 100 0 0.05 0.25 Put in
  g_price g = JS.max2 (if is_call Put then 105 - 100 else 100 - 105) 0 /\
  (g_delta g = 0 \/ g_delta g = if is_call Put then 1 else -1) /\
  g_gamma g = 0 /\ g_theta g = 0 /\ g_vega g = 0 /\ g_rho g = 0.
Proof.
  apply (calculateAllGreeks_at_expiry sample_exp sample_log 105 100 0 0.05 0.25 Put).
  reflexivity.
Defined.

(** ** The strategy summary *)

Lemma abs_not_negative (x : float) : (abs x <? 0) = false.
Proof.
  rewrite ltb_spec, abs_spec. change (Prim2SF 0) with (S754_zero false).
  destruct (Prim2SF x) as [[]|[]| |[] m e]; reflexivity.
Qed.

(** X10.  [getStrategySummary] reports a risk/reward ratio only when the maximum
    loss is a number other than 0 and NaN (otherwise the field is [null]),
    and the ratio it reports is never negative. *)
Theorem riskRewardRatio_needs_nonzero_loss
    (Math_exp Math_log : float -> float) (now : float) (fuel : nat) (legs : list leg)
    (currentStockPrice riskFreeRate impliedVol : float) (su : summary) (x : float) :
  getStrategySummary Math_exp Math_log now fuel legs currentStockPrice riskFreeRate
    impliedVol = Some su ->
  s_riskRewardRatio su = VNum x ->
  (x <? 0) = false /\
  exists loss, s_maxLoss su = VNum loss /\ is_nan loss = false /\ (loss =? 0) = false.
Proof.
  unfold getStrategySummary.
  destruct (calculateBreakevens fuel legs) as [bes|]; [|discriminate].
  destruct (calculateMaxProfitLoss fuel legs) as [ex|]; [|discriminate].
  cbv zeta. intros H. injection H as <-. simpl.
  destruct (maxLoss ex) as [|loss]; simpl; [discriminate|].
  destruct (is_nan loss) eqn:En; simpl; [discriminate|].
  destruct (loss =? 0) eqn:Ez; simpl; [discriminate|].
  intros H. injection H as <-. split; [apply abs_not_negative|].
  exists loss. split; [reflexivity|]. split; [exact En | exact Ez].
Qed.

(** ** The prices and points of the P&L curve *)

Lemma ltb_irrefl (x : float) : (x <? x) = false.
Proof. destruct (x <? x) eqn:E; [|reflexivity]. now rewrite (ltb_asym _ _ E) in E. Qed.

Lemma ltb_nan_l (x : float) : (nan <? x) = false.
Proof. rewrite ltb_spec. reflexivity. Qed.

(** [Math.max(a, x)] is never below [a]. *)
Lemma max2_not_below (a x : float) : (JS.max2 a x <? a) = false.
Proof.
  unfold JS.max2.
  destruct (is_nan a || is_nan x); [apply ltb_nan_l|].
  destruct (a <? x) eqn:E1; [now apply ltb_asym|].
  destruct (x <? a) eqn:E2; [apply ltb_irrefl|].
  destruct (get_sign a); [exact E2 | apply ltb_irrefl].
Qed.

Lemma curve_prices_le (fuel : nat) (endPrice step price : float) (ps : list float) :
  curve_prices fuel endPrice step price = Some ps ->
  Forall (fun p => (p <=? endPrice) = true) ps.
Proof.
  revert price ps. induction fuel as [|fuel IH]; intros price ps; simpl.
  - destruct (price <=? endPrice); [discriminate|]. intros H. injection H as <-. constructor.
  - destruct (price <=? endPrice) eqn:E.
    + destruct (curve_prices fuel endPrice step (price + step)) as [qs|] eqn:Eq;
        [|discriminate].
      simpl. intros H. injection H as <-. constructor; [exact E | now apply (IH _ _ Eq)].
    + intros H. injection H as <-. constructor.
Qed.

Lemma curve_prices_head (fuel : nat) (endPrice step price : float) (ps : list float)
    (p : float) :
  curve_prices fuel endPrice step price = Some ps -> head ps = Some p -> p = price.
Proof.
  destruct fuel as [|fuel]; simpl.
  - destruct (price <=? endPrice); [discriminate|]. intros H. injection H as <-. discriminate.
  - destruct (price <=? endPrice).
    + destruct (curve_prices fuel endPrice step (price + step)); [|discriminate].
      simpl. intros H. injection H as <-. simpl. congruence.
    + intros H. injection H as <-. discriminate.
Qed.

(** X11.  A returned P&L curve is taken at prices that start at
    [max(0.01, currentStockPrice - range)], which is never below 0.01, and
    never exceed [currentStockPrice + range]; at each of them [atExpiration]
    holds the expiration P&L and [current] the current P&L (at rate 0.05 and
    volatility 0.25) of that price. *)
Theorem generatePLCurve_points
    (Math_exp Math_log : float -> float) (now : float) (fuel : nat) (legs : list leg)
    (priceRange : option float) (currentStockPrice : float) (d : plData) :
  generatePLCurve Math_exp Math_log now fuel legs priceRange currentStockPrice = Some d ->
  exists prices,
    atExpiration d = map (fun p => mkPoint p (calculatePLAtExpiration legs p)) prices /\
    current d =
      map (fun p => mkPoint p (calculateCurrentPL Math_exp Math_log now legs p 0.05 0.25))
        prices /\
    Forall (fun p => (p <=? curveEndPrice priceRange currentStockPrice) = true) prices /\
    (forall p, head prices = Some p ->
       p = curveStartPrice priceRange currentStockPrice /\ (p <? 0.01) = false).
Proof.
  unfold generatePLCurve, curveEndPrice, curveStartPrice. cbv zeta. rewrite curve_spec.
  destruct (curve_prices _ _ _ _) as [ps|] eqn:E; [|discriminate].
  simpl. intros H. injection H as <-. exists ps. simpl.
  split; [reflexivity|]. split; [reflexivity|].
  split; [now apply (curve_prices_le _ _ _ _ _ E)|].
  intros p Hp. rewrite (curve_prices_head _ _ _ _ _ _ E Hp).
  split; [reflexivity | apply max2_not_below].
Qed.

(** ** The floored prices of the [pages/api/calculate] route *)

Lemma max2_zero_idem (x : float) : JS.max2 (JS.max2 x 0) 0 = JS.max2 x 0.
Proof.
  destruct (is_nan x) eqn:Hn.
  - assert (JS.max2 x 0 = nan) as -> by (unfold JS.max2; now rewrite Hn).
    reflexivity.
  - destruct (x <? 0) eqn:H1.
    + assert (JS.max2 x 0 = 0) as -> by (unfold JS.max2; now rewrite Hn, H1).
      reflexivity.
    + destruct (0 <? x) eqn:H2.
      * assert (JS.max2 x 0 = x) as E by (unfold JS.max2; now rewrite Hn, H1, H2).
        now rewrite !E.
      * destruct (zero_cases x Hn H1 H2) as [-> | ->]; reflexivity.
Qed.

(** X13.  [blackScholesCall] and [blackScholesPut] of the route return the
    library's [callPrice] and [putPrice] floored at 0, and so, unlike those,
    never return a negative price. *)
Theorem route_prices_are_floored
    (Math_exp Math_log : float -> float) (S K T r sigma : float) :
  blackScholesCall Math_exp Math_log S K T r sigma =
    JS.max2 (callPrice Math_exp Math_log S K T r sigma) 0 /\
  blackScholesPut Math_exp Math_log S K T r sigma =
    JS.max2 (putPrice Math_exp Math_log S K T r sigma) 0 /\
  (blackScholesCall Math_exp Math_log S K T r sigma <? 0) = false /\
  (blackScholesPut Math_exp Math_log S K T r sigma <? 0) = false.
Proof.
  unfold blackScholesCall, blackScholesPut, callPrice, putPrice, calculateD1, calculateD2.
  cbv zeta. destruct (T <=? 0); rewrite ?max2_zero_idem;
    repeat split; apply max2_zero_not_negative.
Qed.

(** ** Worked instances of the properties above *)

Lemma extrema_bound_every_sample_witness :
  exists ps, extremaSamples 1000 (longStraddle 100 5 5) = Some ps /\
    Forall (fun p => (calculatePLAtExpiration (longStraddle 100 5 5) p <=? 29000) = true) ps /\
    Forall (fun p => (-999.00000000000091 <=? calculatePLAtExpiration (longStraddle 100 5 5) p)
                     = true) ps.
Proof.
  destruct (extrema_bound_every_sample (longStraddle 100 5 5) 1000
              {| maxProfit := VNum 29000; maxLoss := VNum (-999.00000000000091) |}
              ltac:(vm_compute; reflexivity)) as (ps & E & Hmax & Hmin).
  exists ps. split; [exact E|].
  split; [apply (Hmax 29000); reflexivity | apply (Hmin (-999.00000000000091)); reflexivity].
Defined.

Lemma maxLoss_le_maxProfit_witness : (-999.00000000000091 <=? 29000) = true.
Proof.
  apply (maxLoss_le_maxProfit (longStraddle 100 5 5) 1000
           {| maxProfit := VNum 29000; maxLoss := VNum (-999.00000000000091) |});
    solve [reflexivity | vm_compute; reflexivity].
Defined.


Lemma breakevens_are_distinct_witness :
  ForallOrdPairs (fun x y => (y =? x) = false) [94.879999999999995; 105.13].
Proof.
  apply (breakevens_are_distinct 1000 (longStraddle 100 2.5625 2.5625)).
  vm_compute. reflexivity.
Defined.

Lemma riskRewardRatio_needs_nonzero_loss_witness :
  exists su,
    getStrategySummary sample_exp sample_log 0 1000 [longCall 100 5.125] 100 0.05 0.25
      = Some su /\
    s_riskRewardRatio su = VNum 57.536585365853661 /\
    (57.536585365853661 <? 0) = false /\
    exists loss, s_maxLoss su = VNum loss /\ is_nan loss = false /\ (loss =? 0) = false.
Proof.
  destruct (getStrategySummary sample_exp sample_log 0 1000 [longCall 100 5.125] 100 0.05
              0.25) as [su|] eqn:E; [|vm_compute in E; discriminate].
  exists su. split; [reflexivity|].
  assert (R : s_riskRewardRatio su = VNum 57.536585365853661)
    by (vm_compute in E; injection E as <-; reflexivity).
  split; [exact R|].
  exact (riskRewardRatio_needs_nonzero_loss sample_exp sample_log 0 1000
           [longCall 100 5.125] 100 0.05 0.25 su 57.536585365853661 E R).
Defined.

Lemma generatePLCurve_points_witness :
  exists d,
    generatePLCurve sample_exp sample_log 0 1000 [longCall 100 5] None 100 = Some d /\
    exists prices,
      atExpiration d =
        map (fun p => mkPoint p (calculatePLAtExpiration [longCall 100 5] p)) prices /\
      current d =
        map (fun p => mkPoint p
                        (calculateCurrentPL sample_exp sample_log 0 [longCall 100 5] p 0.05
                           0.25)) prices /\
      Forall (fun p => (p <=? curveEndPrice None 100) = true) prices /\
      (forall p, head prices = Some p ->
         p = curveStartPrice None 100 /\ (p <? 0.01) = false).
Proof.
  destruct (generatePLCurve sample_exp sample_log 0 1000 [longCall 100 5] None 100)
    as [d|] eqn:E; [|vm_compute in E; discriminate].
  exists d. split; [reflexivity|].
  exact (generatePLCurve_points sample_exp sample_log 0 1000 [longCall 100 5] None 100 d E).
Defined.

(** ** The time value reported for an expired option *)

Lemma sub_self (x : float) : is_finite x = true -> x - x = 0.
Proof.
  intros Hf. rewrite <- (SF2Prim_Prim2SF (x - x)), sub_spec.
  unfold is_finite, is_infinity, PrimFloat.is_nan in Hf.
  rewrite !eqb_spec, abs_spec in Hf.
  change (Prim2SF infinity) with (S754_infinity false) in Hf.
  destruct (Prim2SF x) as [[]|[]| |s m e]; try discriminate Hf; try reflexivity.
  unfold SF64sub, SFsub. cbv zeta.
  replace (cond_Zopp s (Z.pos (fst (shl_align m e (IntDef.Z.min e e)))) -
           cond_Zopp s (Z.pos (fst (shl_align m e (IntDef.Z.min e e)))))%Z with 0%Z
    by (symmetry; apply Z.sub_diag).
  reflexivity.
Qed.

(** X12.  For an option at or past expiry, [handleSingleOption] reports the
    intrinsic value as the price and, when it is finite, a time value of
    0. *)
Theorem expired_option_has_no_time_value
    (Math_exp Math_log : float -> float) (now : float) (strike expiration : float)
    (optionType : option_type) (stockPrice riskFreeRate impliedVolatility : float) :
  let res :=
    handleSingleOption Math_exp Math_log now strike expiration optionType stockPrice
      riskFreeRate impliedVolatility in
  (so_timeToExpiration res <=? 0) = true ->
  so_price res = so_intrinsicValue res /\
  (is_finite (so_intrinsicValue res) = true -> so_timeValue res = 0).
Proof.
  cbv zeta. unfold handleSingleOption, calculateAllGreeks, callPrice, putPrice. simpl.
  intros HT. rewrite HT, !max2_zero_comm.
  destruct (is_call optionType); split; try reflexivity; apply sub_self.
Qed.

Lemma expired_option_has_no_time_value_witness :
  let res := handleSingleOption sample_exp sample_log 1700000000000 100 1600000000000 Call
               105 0.05 0.25 in
  so_price res = so_intrinsicValue res /\
  (is_finite (so_intrinsicValue res) = true -> so_timeValue res = 0).
Proof.
  apply (expired_option_has_no_time_value sample_exp sample_log 1700000000000 100
           1600000000000 Call 105 0.05 0.25).
  reflexivity.
Defined.
